(** * fastapi_crudrouter.core._utils

    A shallow embedding of [src/fastapi_crudrouter/core/_utils.py] and the
    properties its specification states about it: the primary-key type
    resolver [get_pk_type], the create-schema derivation [schema_factory],
    the error builder [create_query_validation_exception] and the pagination
    dependency built by [pagination_factory].

    Python dictionaries are finite maps ([gmap]) when the code only looks
    keys up, and association lists where a literal is written out; Python
    integers are [Z]; [None] is [option]'s [None]; a raised exception is
    the [Raise] branch of [PyResult]. *)

From stdpp Require Import base gmap strings list fin_maps pretty.
From Stdlib Require Import ZArith Lia.

Local Open Scope string_scope.
Local Open Scope Z_scope.

(** ** Python values and exceptions *)

(** The JSON-like values that appear in the error payload. A dictionary
    literal is kept in the order it is written. *)
#[warnings="-register-all"]
Inductive pyval : Type :=
  | VNone
  | VInt (n : Z)
  | VStr (s : string)
  | VList (items : list pyval)
  | VDict (entries : list (string * pyval)).

(** [fastapi.HTTPException(status_code, detail=...)]. *)
Record HTTPException : Type := mkHTTPException {
  status_code : Z;
  detail : pyval
}.

(** The exceptions that can leave the functions of this module. *)
Inductive PyExc : Type :=
  | TypeError (msg : string)
  | NameError (msg : string)
  | KeyError (key : string)
  | OtherError (msg : string)
  | HTTPError (e : HTTPException).

Inductive PyResult (A : Type) : Type :=
  | Return (a : A)
  | Raise (e : PyExc).
Arguments Return {A} a.
Arguments Raise {A} e.

#[global] Instance PyResult_ret : MRet PyResult := fun _ a => Return a.
#[global] Instance PyResult_bind : MBind PyResult := fun _ _ k r =>
  match r with
  | Return a => k a
  | Raise e => Raise e
  end.

(** [try: r  except TypeError: handler]. Every other exception propagates. *)
Definition except_TypeError {A} (r : PyResult A) (handler : PyResult A) : PyResult A :=
  match r with
  | Raise (TypeError _) => handler
  | _ => r
  end.

(** Truth value of an [Optional[int]]: [None] and [0] are false. *)
Definition truthy (o : option Z) : bool :=
  match o with
  | None => false
  | Some n => negb (n =? 0)
  end.

(** [str(n)] for an integer and for an [Optional[int]], as an f-string
    renders them. *)
Definition str_of_int (n : Z) : string := pretty n.
Definition str_of_optional_int (o : option Z) : string :=
  from_option str_of_int "None" o.

(** ** Query-validation errors *)

Definition create_query_validation_exception (field msg : string) : HTTPException :=
  mkHTTPException 422
    (VDict
       [("detail",
         VList
           [VDict [("loc", VList [VStr "query"; VStr field]);
                   ("msg", VStr msg);
                   ("type", VStr "type_error.integer")]])]).

(** ** Pagination *)

Module Pagination.

(** [PAGINATION = Dict[str, Optional[int]]]. *)
Abbreviation PAGINATION := (gmap string (option Z)).

Definition skip_msg : string :=
  "skip query parameter must be greater or equal to zero".
Definition limit_low_msg : string :=
  "limit query parameter must be greater then zero".
(** [f"limit query parameter must be less then {max_limit}"]. *)
Definition limit_high_msg (max_limit : option Z) : string :=
  "limit query parameter must be less then " +:+ str_of_optional_int max_limit.

(** The guard [max_limit and max_limit < limit]: the comparison is only
    evaluated when [max_limit] is true, hence an integer. *)
Definition over_max (max_limit : option Z) (limit : Z) : bool :=
  truthy max_limit && from_option (fun m => m <? limit) false max_limit.

(** The closure [pagination] that [pagination_factory max_limit] builds,
    with both parameters given. *)
Definition pagination (max_limit : option Z) (skip : Z) (limit : option Z)
  : PyResult PAGINATION :=
  if skip <? 0 then
    Raise (HTTPError (create_query_validation_exception "skip" skip_msg))
  else
    _ ← match limit with
        | Some l =>
            if l <=? 0 then
              Raise (HTTPError
                       (create_query_validation_exception "limit" limit_low_msg))
            else if over_max max_limit l then
              Raise (HTTPError
                       (create_query_validation_exception "limit"
                          (limit_high_msg max_limit)))
            else Return tt
        | None => Return tt
        end;
    Return {["skip" := Some skip; "limit" := limit]}.

(** Calling the closure with parameters left out: [skip] defaults to [0]
    and [limit] to the configured maximum. *)
Definition pagination_call (max_limit : option Z)
    (skip : option Z) (limit : option (option Z)) : PyResult PAGINATION :=
  pagination max_limit (default 0 skip) (default max_limit limit).

(** [pagination_factory] returns the closure wrapped in [Depends]; the
    wrapper only carries the callable. *)
Record Depends : Type := mkDepends {
  dependency : Z -> option Z -> PyResult PAGINATION
}.

Definition pagination_factory (max_limit : option Z) : Depends :=
  mkDepends (pagination max_limit).

End Pagination.

(** ** Schema descriptors *)

(** Type annotations, as far as this module distinguishes them: it returns
    them, copies them and falls back to [int]. *)
#[warnings="-register-all"]
Inductive pytype : Type :=
  | PyInt
  | PyStr
  | PyFloat
  | PyBool
  | PyClass (name : string)
  | PyForwardRef (name : string)
  | PyGeneric (origin : string) (args : list pytype).

(** The default of a field: [...] (Ellipsis) marks it required. *)
Inductive pydefault : Type :=
  | Ellipsis
  | DefaultValue (v : pyval).

Definition is_required (d : pydefault) : bool :=
  match d with
  | Ellipsis => true
  | DefaultValue _ => false
  end.

(** Pydantic v2 field metadata: a value of [model_fields]. *)
Module FieldInfo.
Record t : Type := mk {
  annotation : pytype;
  default : pydefault
}.
End FieldInfo.

(** Pydantic v1 field metadata: a value of [__fields__]. The factory reads
    [name] and [type_]. [outer_type_] is the annotation the field was
    declared with; [type_] is what Pydantic v1 derives from it, the item
    type when the annotation is a container ([List[str]] gives [str]). *)
Module ModelField.
Record t : Type := mk {
  name : string;
  type_ : pytype;
  required : bool;
  outer_type_ : pytype
}.
End ModelField.

(** A schema class, by the attributes this module reads. An attribute the
    class does not have ([hasattr] is false) is [None]. [fields_v1] is
    [__fields__.values()], in order; the code never reads the keys.
    [type_hints] is what [typing.get_type_hints] evaluates to on the class:
    a mapping, or the exception it raises (an unresolvable forward
    reference). *)
Record Schema : Type := mkSchema {
  cls_name : string;
  model_fields : option (gmap string FieldInfo.t);
  fields_v1 : option (list ModelField.t);
  type_hints : PyResult (gmap string pytype)
}.

Definition get_type_hints (schema : Schema) : PyResult (gmap string pytype) :=
  type_hints schema.

(** Truth value of a dictionary: only the empty one is false. *)
Definition dict_truthy {V} (m : gmap string V) : bool :=
  bool_decide (m ≠ ∅).

(** [k in m]. *)
Definition dict_contains {V} (k : string) (m : gmap string V) : bool :=
  bool_decide (is_Some (m !! k)).

(** [m[k]]. *)
Definition getitem {V} (m : gmap string V) (k : string) : PyResult V :=
  match m !! k with
  | Some v => Return v
  | None => Raise (KeyError k)
  end.

(** ** The primary-key type resolver *)

Definition get_pk_type (schema : Schema) (pk_field : string) : PyResult pytype :=
  let fields := default ∅ (model_fields schema) in
  if dict_truthy fields && dict_contains pk_field fields then
    field_info ← getitem fields pk_field;
    Return (FieldInfo.annotation field_info)
  else
    hints ← get_type_hints schema;
    if dict_contains pk_field hints then getitem hints pk_field
    else Return PyInt.

(** ** The schema factory *)

(** Field definitions as [create_model] takes them: name to
    [(annotation, default)]. *)
Abbreviation FieldDefinitions := (gmap string (pytype * pydefault)).

(** How the model name reaches [create_model]: [create_model(name, **fields)]
    or [create_model(__model_name=name, **fields)]. *)
Inductive NameArgument : Type :=
  | Positional
  | Keyword.

(** [pydantic.create_model] is not part of this module; it is a parameter
    of the embedding. *)
Class ModelConstruction : Type :=
  create_model : NameArgument -> string -> FieldDefinitions -> PyResult Schema.

(** The local [fields] of [schema_factory]: every field but the primary
    key, with its type and [...] for the default. The legacy comprehension
    inserts key by key, so a later field of the same name replaces an
    earlier one. *)
Definition fields_without_pk (schema_cls : Schema) (pk_field_name : string)
  : FieldDefinitions :=
  match model_fields schema_cls with
  | Some fields =>
      (fun field_info => (FieldInfo.annotation field_info, Ellipsis))
        <$> filter (fun item => item.1 ≠ pk_field_name) fields
  | None =>
      match fields_v1 schema_cls with
      | Some values =>
          foldl (fun acc f =>
                   <[ModelField.name f := (ModelField.type_ f, Ellipsis)]> acc)
                ∅
                (filter (fun f => ModelField.name f ≠ pk_field_name) values)
      | None => ∅
      end
  end.

Definition schema_factory `{ModelConstruction}
    (schema_cls : Schema) (pk_field_name : string) (name : string)
  : PyResult Schema :=
  let fields := fields_without_pk schema_cls pk_field_name in
  let name := cls_name schema_cls +:+ name in
  except_TypeError (create_model Positional name fields)
                   (create_model Keyword name fields).

(** A call with arguments left out: [pk_field_name="id"], [name="Create"]. *)
Definition schema_factory_call `{ModelConstruction}
    (schema_cls : Schema) (pk_field_name name : option string) : PyResult Schema :=
  schema_factory schema_cls (default "id" pk_field_name) (default "Create" name).

(** *** What is observed of a schema *)

(** The fields a schema declares, each with its type and whether it is
    required, read from whichever attribute the class has. *)
Definition declared_fields (s : Schema) : gmap string (pytype * bool) :=
  match model_fields s with
  | Some fields =>
      (fun fi => (FieldInfo.annotation fi, is_required (FieldInfo.default fi)))
        <$> fields
  | None =>
      match fields_v1 s with
      | Some values =>
          list_to_map
            ((fun f => (ModelField.name f,
                        (ModelField.type_ f, ModelField.required f))) <$> values)
      | None => ∅
      end
  end.

Definition field_set (s : Schema) : gset string := dom (declared_fields s).

(** The annotation each field was declared with: [annotation] under
    Pydantic v2, [outer_type_] under Pydantic v1. *)
Definition annotated_fields (s : Schema) : gmap string pytype :=
  match model_fields s with
  | Some fields => FieldInfo.annotation <$> fields
  | None =>
      match fields_v1 s with
      | Some values =>
          list_to_map
            ((fun f => (ModelField.name f, ModelField.outer_type_ f)) <$> values)
      | None => ∅
      end
  end.

(** Field names are unique within a schema. A mapping has this by
    construction; the legacy value list has to be told. *)
Definition unique_field_names (s : Schema) : Prop :=
  match model_fields s, fields_v1 s with
  | None, Some values => NoDup (ModelField.name <$> values)
  | _, _ => True
  end.

(** What a create schema is expected to declare, given what the original
    declares: the same fields and types but for the primary key, all
    required. *)
Definition required_without (pk_field_name : string)
    (fields : gmap string (pytype * bool)) : gmap string (pytype * bool) :=
  (fun field => (field.1, true)) <$> delete pk_field_name fields.

(** What this module relies on from [create_model]: a class it returns has
    the name it was given and declares the fields it was given. *)
Class ModelConstructionSpec `{ModelConstruction} : Prop := {
  create_model_name how n defs s :
    create_model how n defs = Return s -> cls_name s = n;
  create_model_fields how n defs s :
    create_model how n defs = Return s ->
    declared_fields s = (fun def => (def.1, is_required def.2)) <$> defs
}.

(** [create_model] builds the class under one of the two calling
    conventions the factory tries: at once, or after a [TypeError]. *)
Definition constructs `{ModelConstruction} (n : string) (defs : FieldDefinitions)
  : Prop :=
  (exists s, create_model Positional n defs = Return s) \/
  ((exists msg, create_model Positional n defs = Raise (TypeError msg)) /\
   exists s, create_model Keyword n defs = Return s).

(** *** Reference model-construction facilities *)

(** Three facilities that meet [ModelConstructionSpec], one per way the
    two calling conventions can turn out: a v2-style one whose model name is
    positional only, a v1-style one that takes the name either way, and one
    that takes the name by keyword only. *)
Module Reference.

Definition class_v2 (n : string) (defs : FieldDefinitions) : Schema :=
  {| cls_name := n;
     model_fields := Some ((fun def => FieldInfo.mk def.1 def.2) <$> defs);
     fields_v1 := None;
     type_hints := Return (fst <$> defs) |}.

Definition class_v1 (n : string) (defs : FieldDefinitions) : Schema :=
  {| cls_name := n;
     model_fields := None;
     fields_v1 :=
       Some ((fun item =>
                ModelField.mk item.1 item.2.1 (is_required item.2.2) item.2.1)
               <$> map_to_list defs);
     type_hints := Return (fst <$> defs) |}.

Definition pydantic_v2 : ModelConstruction := fun how n defs =>
  match how with
  | Positional => Return (class_v2 n defs)
  | Keyword =>
      Raise (TypeError "create_model() missing 1 required positional argument")
  end.

Definition pydantic_v1 : ModelConstruction := fun how n defs =>
  Return (class_v1 n defs).

Definition keyword_only : ModelConstruction := fun how n defs =>
  match how with
  | Positional =>
      Raise (TypeError "create_model() takes 0 positional arguments")
  | Keyword => Return (class_v1 n defs)
  end.

End Reference.

(** *** Example schemas *)

Module Examples.

(** [class User(BaseModel): id: int; name: str; email: Optional[str] = None]
    under Pydantic v2. *)
Definition user_fields : gmap string FieldInfo.t :=
  {[ "id" := FieldInfo.mk PyInt Ellipsis;
     "name" := FieldInfo.mk PyStr Ellipsis;
     "email" := FieldInfo.mk (PyGeneric "Optional" [PyStr]) (DefaultValue VNone) ]}.

Definition user_hints : gmap string pytype :=
  {[ "id" := PyInt; "name" := PyStr; "email" := PyGeneric "Optional" [PyStr] ]}.

Definition user : Schema :=
  {| cls_name := "User";
     model_fields := Some user_fields;
     fields_v1 := None;
     type_hints := Return user_hints |}.

(** [class Potato(BaseModel): id: int; color: str; mass: float = 0.5] under
    Pydantic v1. *)
Definition potato : Schema :=
  {| cls_name := "Potato";
     model_fields := None;
     fields_v1 :=
       Some [ModelField.mk "id" PyInt true PyInt;
             ModelField.mk "color" PyStr true PyStr;
             ModelField.mk "mass" PyFloat false PyFloat];
     type_hints :=
       Return {[ "id" := PyInt; "color" := PyStr; "mass" := PyFloat ]} |}.

(** [class Article(BaseModel): id: int; tags: List[str]] under Pydantic v1:
    the field [tags] has [outer_type_ = List[str]] and [type_ = str]. *)
Definition article : Schema :=
  {| cls_name := "Article";
     model_fields := None;
     fields_v1 :=
       Some [ModelField.mk "id" PyInt true PyInt;
             ModelField.mk "tags" PyStr true (PyGeneric "List" [PyStr])];
     type_hints :=
       Return {[ "id" := PyInt; "tags" := PyGeneric "List" [PyStr] ]} |}.



End Examples.

(** * Properties *)

(** ** Query-validation errors *)

(** C5: for every parameter name and message the builder returns an error
    with status 422 whose detail carries, under ["detail"], a one-element
    list holding the record [{loc: ["query", field], msg: msg,
    type: "type_error.integer"}]; the kind tag does not depend on the
    arguments. *)
Theorem create_query_validation_exception_shape (field msg : string) :
  let e := create_query_validation_exception field msg in
  status_code e = 422 /\
  detail e =
    VDict [("detail",
            VList [VDict [("loc", VList [VStr "query"; VStr field]);
                          ("msg", VStr msg);
                          ("type", VStr "type_error.integer")]])].
Proof. split; reflexivity. Qed.

(** ** Pagination *)

Section PaginationProperties.
Import Pagination.

Variable max_limit : option Z.

Lemma over_max_spec (limit : Z) :
  over_max max_limit limit = true <->
  exists m, max_limit = Some m /\ m <> 0 /\ m < limit.
Proof.
  unfold over_max, truthy. destruct max_limit as [m|]; simpl.
  - rewrite andb_true_iff, negb_true_iff, Z.eqb_neq, Z.ltb_lt.
    split.
    + intros [Hm Hlt]. exists m. auto.
    + intros (m' & Heq & Hm & Hlt). injection Heq as ->. auto.
  - split; [discriminate | intros (m & Heq & _); discriminate].
Qed.

Lemma over_max_false (limit : Z) :
  over_max max_limit limit = false <->
  max_limit = None \/ max_limit = Some 0 \/
  exists m, max_limit = Some m /\ limit <= m.
Proof.
  rewrite <- not_true_iff_false, over_max_spec.
  destruct max_limit as [m|].
  - split.
    + intros Hno. destruct (decide (m = 0)) as [->|Hm]; [auto|].
      right; right. exists m. split; [done|].
      destruct (decide (limit <= m)); [done|].
      exfalso. apply Hno. exists m. repeat split; [done | lia].
    + intros [?|[Hz|(m' & Heq & Hle)]] (m'' & Heq' & Hm & Hlt);
        simplify_eq; lia.
  - split; [auto | intros _ (m & ? & _); discriminate].
Qed.

(** Every error the validator raises is built by
    [create_query_validation_exception]. *)
Lemma pagination_raises_validation_error (skip : Z) (limit : option Z) (e : PyExc) :
  pagination max_limit skip limit = Raise e ->
  exists field msg, e = HTTPError (create_query_validation_exception field msg).
Proof.
  unfold pagination. destruct (skip <? 0).
  - intros [= <-]. eauto.
  - destruct limit as [l|]; simpl; [|discriminate].
    destruct (l <=? 0); simpl; [intros [= <-]; eauto|].
    destruct (over_max max_limit l); simpl; [intros [= <-]; eauto|discriminate].
Qed.

End PaginationProperties.

Import Pagination.

(** C6: whatever the configured maximum and whatever the limit, a negative
    [skip] is rejected with the error naming ["skip"]; as this holds for
    every limit, invalid ones included, the check comes before any limit
    check. *)
Theorem pagination_negative_skip (max_limit : option Z) (skip : Z) (limit : option Z) :
  skip < 0 ->
  pagination max_limit skip limit =
    Raise (HTTPError
             (create_query_validation_exception "skip"
                "skip query parameter must be greater or equal to zero")).
Proof.
  intros Hskip. unfold pagination.
  destruct (Z.ltb_spec skip 0) as [_|Hge]; [reflexivity | lia].
Qed.

Lemma pagination_negative_skip_witness :
  -1 < 0 /\
  pagination (Some 10) (-1) (Some 50) =
    Raise (HTTPError
             (create_query_validation_exception "skip"
                "skip query parameter must be greater or equal to zero")).
Proof. split; [lia | apply pagination_negative_skip; lia]. Defined.

(** C7: with [skip >= 0], a provided limit that is zero or negative is
    rejected with the error naming ["limit"] and the literal message
    "limit query parameter must be greater then zero", whatever the
    configured maximum. *)
Theorem pagination_nonpositive_limit (max_limit : option Z) (skip limit : Z) :
  0 <= skip -> limit <= 0 ->
  pagination max_limit skip (Some limit) =
    Raise (HTTPError
             (create_query_validation_exception "limit"
                "limit query parameter must be greater then zero")).
Proof.
  intros Hskip Hlimit. unfold pagination.
  destruct (Z.ltb_spec skip 0) as [Hlt|_]; [lia|].
  destruct (Z.leb_spec limit 0) as [_|Hgt]; [reflexivity | lia].
Qed.

Lemma pagination_nonpositive_limit_witness :
  0 <= 0 /\ 0 <= 0 /\
  pagination None 0 (Some 0) =
    Raise (HTTPError
             (create_query_validation_exception "limit"
                "limit query parameter must be greater then zero")).
Proof.
  split; [lia|]. split; [lia|]. apply pagination_nonpositive_limit; lia.
Defined.

(** The two checks that precede the over-maximum guard pass. *)
Lemma pagination_past_range_checks (max_limit : option Z) (skip limit : Z) :
  0 <= skip -> 0 < limit ->
  pagination max_limit skip (Some limit) =
    if over_max max_limit limit then
      Raise (HTTPError
               (create_query_validation_exception "limit"
                  (limit_high_msg max_limit)))
    else Return {["skip" := Some skip; "limit" := Some limit]}.
Proof.
  intros Hskip Hlimit. unfold pagination.
  destruct (Z.ltb_spec skip 0) as [Hlt|_]; [lia|].
  destruct (Z.leb_spec limit 0) as [Hle|_]; [lia|].
  destruct (over_max max_limit limit); reflexivity.
Qed.

(** C4, as the code has it: with [skip >= 0], a provided limit [> 0] and a
    configured maximum other than zero that the limit exceeds, the validator
    fails with the error naming ["limit"], whose message ends in the
    decimal rendering of the maximum. *)
Theorem pagination_over_max (max_limit skip limit : Z) :
  0 <= skip -> 0 < limit -> max_limit <> 0 -> max_limit < limit ->
  pagination (Some max_limit) skip (Some limit) =
    Raise (HTTPError
             (create_query_validation_exception "limit"
                ("limit query parameter must be less then "
                   +:+ str_of_int max_limit))).
Proof.
  intros Hskip Hlimit Hmax Hover.
  rewrite pagination_past_range_checks by assumption.
  replace (over_max (Some max_limit) limit) with true; [reflexivity|].
  symmetry. apply over_max_spec. exists max_limit. auto.
Qed.

Lemma pagination_over_max_witness :
  0 <= 0 /\ 0 < 50 /\ 10 <> 0 /\ 10 < 50 /\
  pagination (Some 10) 0 (Some 50) =
    Raise (HTTPError
             (create_query_validation_exception "limit"
                "limit query parameter must be less then 10")).
Proof.
  split; [lia|]. split; [lia|]. split; [lia|]. split; [lia|].
  apply (pagination_over_max 10 0 50); lia.
Defined.

(** C4 as stated fails when the configured maximum is zero: the limit 5
    exceeds it and the validator succeeds all the same. *)
Lemma pagination_over_max_zero_counterexample :
  0 <= 0 /\ 0 < 5 /\ 0 < 5 /\
  pagination (Some 0) 0 (Some 5) = Return {["skip" := Some 0; "limit" := Some 5]} /\
  ~ (exists e, pagination (Some 0) 0 (Some 5) = Raise e).
Proof.
  split; [lia|]. split; [lia|]. split; [lia|]. split; [reflexivity|].
  intros [e He]. discriminate He.
Qed.

(** C8: with [skip >= 0] and a limit that is absent, or positive and within
    the maximum when one is configured, the validator returns
    [{"skip": skip, "limit": limit}], both values unchanged. *)
Theorem pagination_accepts (max_limit : option Z) (skip : Z) (limit : option Z) :
  0 <= skip ->
  (limit = None \/
   exists l, limit = Some l /\ 0 < l /\
             (max_limit = None \/ exists m, max_limit = Some m /\ l <= m)) ->
  pagination max_limit skip limit =
    Return {["skip" := Some skip; "limit" := limit]}.
Proof.
  intros Hskip [->|(l & -> & Hl & Hmax)].
  - unfold pagination.
    destruct (Z.ltb_spec skip 0) as [Hlt|_]; [lia | reflexivity].
  - rewrite pagination_past_range_checks by assumption.
    replace (over_max max_limit l) with false; [reflexivity|].
    symmetry. apply over_max_false. tauto.
Qed.

Lemma pagination_accepts_witness :
  (0 <= 5 /\ 0 < 10 /\ 10 <= 10 /\
   pagination (Some 10) 5 (Some 10)
     = Return {["skip" := Some 5; "limit" := Some 10]}) /\
  (0 <= 0 /\
   pagination None 0 None = Return {["skip" := Some 0; "limit" := None]}).
Proof.
  split.
  - split; [lia|]. split; [lia|]. split; [lia|].
    apply pagination_accepts; [lia|]. right. exists 10.
    split; [reflexivity|]. split; [lia|]. right. exists 10. split; [reflexivity|lia].
  - split; [lia|]. apply pagination_accepts; [lia|]. left. reflexivity.
Defined.

(** A request that leaves [limit] out is validated with the configured
    maximum in its place. *)
Lemma pagination_call_default_limit (max_limit : option Z) (skip : Z) :
  pagination_call max_limit (Some skip) None = pagination max_limit skip max_limit.
Proof. reflexivity. Qed.

(** C10: a configured maximum of exactly zero switches the over-maximum
    check off: every [skip >= 0] with a provided limit [> 0] is accepted and
    returned unchanged. *)
Theorem pagination_max_zero_unbounded (skip limit : Z) :
  0 <= skip -> 0 < limit ->
  pagination (Some 0) skip (Some limit) =
    Return {["skip" := Some skip; "limit" := Some limit]}.
Proof.
  intros Hskip Hlimit.
  rewrite pagination_past_range_checks by assumption. reflexivity.
Qed.

Lemma pagination_max_zero_unbounded_witness :
  0 <= 3 /\ 0 < 1000 /\
  pagination (Some 0) 3 (Some 1000) =
    Return {["skip" := Some 3; "limit" := Some 1000]}.
Proof.
  split; [lia|]. split; [lia|]. apply pagination_max_zero_unbounded; lia.
Defined.

(** ** The primary-key type resolver *)

Lemma dict_contains_true {V} (k : string) (m : gmap string V) :
  dict_contains k m = true <-> is_Some (m !! k).
Proof. unfold dict_contains. apply bool_decide_eq_true. Qed.


Lemma dict_truthy_lookup {V} (k : string) (m : gmap string V) (v : V) :
  m !! k = Some v -> dict_truthy m = true.
Proof.
  intros Hk. apply bool_decide_eq_true. intros ->.
  by rewrite lookup_empty in Hk.
Qed.

(** The first branch is taken exactly when the field is in [model_fields]. *)
Lemma metadata_guard (schema : Schema) (pk_field : string) :
  let fields := default ∅ (model_fields schema) in
  dict_truthy fields && dict_contains pk_field fields = true <->
  exists fields' field_info,
    model_fields schema = Some fields' /\ fields' !! pk_field = Some field_info.
Proof.
  simpl. rewrite andb_true_iff, dict_contains_true. split.
  - intros [_ [fi Hfi]]. destruct (model_fields schema) as [mf|]; simpl in Hfi.
    + eauto.
    + by rewrite lookup_empty in Hfi.
  - intros (mf & fi & -> & Hfi). simpl. split; [|by eauto].
    by eapply dict_truthy_lookup.
Qed.

(** C2: when the schema has [model_fields] and the primary-key field is in
    it, the resolver returns that field's annotation. *)
Theorem get_pk_type_from_model_fields
    (schema : Schema) (pk_field : string)
    (fields : gmap string FieldInfo.t) (field_info : FieldInfo.t) :
  model_fields schema = Some fields ->
  fields !! pk_field = Some field_info ->
  get_pk_type schema pk_field = Return (FieldInfo.annotation field_info).
Proof.
  intros Hfields Hpk. unfold get_pk_type.
  assert (Hguard : dict_truthy (default ∅ (model_fields schema))
                   && dict_contains pk_field (default ∅ (model_fields schema)) = true).
  { apply metadata_guard. eauto. }
  rewrite Hguard, Hfields. simpl. unfold getitem. by rewrite Hpk.
Qed.

(** X1: step 2 of the resolver: a field missing from the metadata (or a
    schema without metadata, or with an empty one) but known to type
    introspection gets the introspected type. *)
Lemma get_pk_type_from_type_hints
    (schema : Schema) (pk_field : string)
    (hints : gmap string pytype) (t : pytype) :
  (forall fields, model_fields schema = Some fields -> fields !! pk_field = None) ->
  get_type_hints schema = Return hints ->
  hints !! pk_field = Some t ->
  get_pk_type schema pk_field = Return t.
Proof.
  intros Hmeta Hhints Hpk. unfold get_pk_type.
  destruct (dict_truthy _ && dict_contains _ _) eqn:Hguard.
  - apply metadata_guard in Hguard as (mf & fi & Hmf & Hfi).
    specialize (Hmeta _ Hmf). congruence.
  - rewrite Hhints. simpl.
    replace (dict_contains pk_field hints) with true
      by (symmetry; apply dict_contains_true; eauto).
    unfold getitem. by rewrite Hpk.
Qed.


(** An exception of type introspection is the only one the resolver lets
    through. *)
Lemma get_pk_type_raises (schema : Schema) (pk_field : string) (e : PyExc) :
  get_pk_type schema pk_field = Raise e -> get_type_hints schema = Raise e.
Proof.
  unfold get_pk_type.
  destruct (dict_truthy _ && dict_contains _ _) eqn:Hguard.
  - apply metadata_guard in Hguard as (mf & fi & -> & Hfi). simpl.
    unfold getitem. rewrite Hfi. discriminate.
  - destruct (get_type_hints schema) as [hints|e']; simpl; [|congruence].
    destruct (dict_contains pk_field hints) eqn:Hin; [|discriminate].
    apply dict_contains_true in Hin as [t Ht]. unfold getitem. rewrite Ht.
    discriminate.
Qed.

(** ** The schema factory *)

Lemma filter_key_delete {V} (k : string) (m : gmap string V) :
  filter (fun item => item.1 ≠ k) m = delete k m.
Proof.
  apply map_eq. intros i. apply option_eq. intros v.
  rewrite map_lookup_filter_Some, lookup_delete_Some. simpl.
  split; intros [? ?]; split; congruence.
Qed.

(** Key-by-key insertion of a list without repeated keys builds the map of
    the list. *)
Lemma foldl_insert_list_to_map {A V} (key : A -> string) (val : A -> V)
    (l : list A) (acc : gmap string V) :
  NoDup (key <$> l) ->
  foldl (fun acc a => <[key a := val a]> acc) acc l =
    list_to_map ((fun a => (key a, val a)) <$> l) ∪ acc.
Proof.
  revert acc. induction l as [|a l IH]; intros acc Hnd.
  - by rewrite fmap_nil, list_to_map_nil, (left_id_L ∅ (∪)).
  - rewrite fmap_cons in Hnd. apply NoDup_cons in Hnd as [Hnotin Hnd].
    cbn [foldl]. rewrite IH by done.
    rewrite fmap_cons, list_to_map_cons, <- insert_union_l.
    symmetry. apply insert_union_r, not_elem_of_list_to_map.
    by rewrite <- list_fmap_compose.
Qed.

Lemma NoDup_fmap_filter {A B} (f : A -> B) (P : A -> Prop)
    `{forall a, Decision (P a)} (l : list A) :
  NoDup (f <$> l) -> NoDup (f <$> filter P l).
Proof.
  induction l as [|a l IH]; [done|].
  rewrite fmap_cons, NoDup_cons. intros [Hnotin Hnd].
  rewrite filter_cons. destruct (decide (P a)); [|by auto].
  rewrite fmap_cons. apply NoDup_cons. split; [|by auto].
  intros Hin. apply Hnotin.
  apply list_elem_of_fmap in Hin as (a' & -> & Hin).
  apply list_elem_of_fmap. exists a'. split; [done|].
  by apply list_elem_of_filter in Hin as [_ ?].
Qed.

(** The field definitions the factory hands to [create_model] are the
    original's fields without the primary key, all required. *)
Lemma fields_without_pk_declared (schema_cls : Schema) (pk_field_name : string) :
  unique_field_names schema_cls ->
  (fun def => (def.1, is_required def.2)) <$> fields_without_pk schema_cls pk_field_name
  = required_without pk_field_name (declared_fields schema_cls).
Proof.
  unfold unique_field_names, fields_without_pk, declared_fields, required_without.
  destruct (model_fields schema_cls) as [mf|].
  - intros _. rewrite filter_key_delete, <- fmap_delete.
    by rewrite <- !map_fmap_compose.
  - destruct (fields_v1 schema_cls) as [values|].
    + intros Hnd.
      rewrite (foldl_insert_list_to_map ModelField.name
                 (fun f => (ModelField.type_ f, Ellipsis)))
        by by apply NoDup_fmap_filter.
      rewrite (right_id_L ∅ (∪)).
      apply map_eq. intros k. apply option_eq. intros [t r].
      rewrite !lookup_fmap_Some. split.
      * intros ([t' d] & [= <- <-] & Hk). simpl in *.
        apply elem_of_list_to_map in Hk.
        2:{ rewrite <- list_fmap_compose. by apply NoDup_fmap_filter. }
        apply list_elem_of_fmap in Hk as (f & [= -> -> ->] & Hf).
        apply list_elem_of_filter in Hf as [Hne Hf].
        exists (ModelField.type_ f, ModelField.required f). split; [done|].
        rewrite lookup_delete_ne by done.
        apply elem_of_list_to_map; [by rewrite <- list_fmap_compose|].
        apply list_elem_of_fmap. by exists f.
      * intros ([t' r'] & [= <- <-] & Hk). simpl in *.
        apply lookup_delete_Some in Hk as [Hne Hk].
        apply elem_of_list_to_map in Hk; [|by rewrite <- list_fmap_compose].
        apply list_elem_of_fmap in Hk as (f & [= -> -> ->] & Hf).
        exists (ModelField.type_ f, Ellipsis). split; [done|].
        apply elem_of_list_to_map.
        { rewrite <- list_fmap_compose. by apply NoDup_fmap_filter. }
        apply list_elem_of_fmap. exists f. split; [done|].
        by apply list_elem_of_filter.
    + intros _. by rewrite delete_empty, !fmap_empty.
Qed.

Section SchemaFactoryProperties.
Context `{Facility : ModelConstructionSpec}.

(** The factory returns what [create_model] returns under the convention
    that succeeds. *)
Lemma schema_factory_returns (schema_cls : Schema) (pk_field_name name : string) :
  constructs (cls_name schema_cls +:+ name)
             (fields_without_pk schema_cls pk_field_name) ->
  exists s how,
    schema_factory schema_cls pk_field_name name = Return s /\
    create_model how (cls_name schema_cls +:+ name)
                 (fields_without_pk schema_cls pk_field_name) = Return s.
Proof.
  unfold constructs, schema_factory.
  intros [[s Hs]|[[msg Hmsg] [s Hs]]].
  - exists s, Positional. by rewrite Hs.
  - exists s, Keyword. by rewrite Hmsg.
Qed.

(** It raises only what [create_model] raises: anything but a [TypeError]
    from the first call, anything at all from the second. *)
Lemma schema_factory_raises
    (schema_cls : Schema) (pk_field_name name : string) (e : PyExc) :
  schema_factory schema_cls pk_field_name name = Raise e ->
  create_model Positional (cls_name schema_cls +:+ name)
               (fields_without_pk schema_cls pk_field_name) = Raise e \/
  create_model Keyword (cls_name schema_cls +:+ name)
               (fields_without_pk schema_cls pk_field_name) = Raise e.
Proof.
  unfold schema_factory.
  destruct (create_model Positional _ _) as [s|[]]; simpl; auto; discriminate.
Qed.

(** The schema the factory produces declares the original's fields minus
    the primary key, each required and each with the type the factory
    copied: the annotation under Pydantic v2, [type_] on the legacy path. *)
Theorem schema_factory_field_set
    (schema_cls : Schema) (pk_field_name name : string) :
  unique_field_names schema_cls ->
  constructs (cls_name schema_cls +:+ name)
             (fields_without_pk schema_cls pk_field_name) ->
  exists s,
    schema_factory schema_cls pk_field_name name = Return s /\
    field_set s = field_set schema_cls ∖ {[pk_field_name]} /\
    forall field, field ∈ field_set s ->
      exists t r,
        declared_fields schema_cls !! field = Some (t, r) /\
        declared_fields s !! field = Some (t, true).
Proof.
  intros Hunique Hconstructs.
  destruct (schema_factory_returns _ _ _ Hconstructs) as (s & how & Hs & Hmade).
  exists s. split; [done|].
  apply create_model_fields in Hmade.
  rewrite fields_without_pk_declared in Hmade by done.
  unfold field_set. rewrite Hmade. unfold required_without. split.
  - by rewrite dom_fmap_L, dom_delete_L.
  - intros field Hin. apply elem_of_dom in Hin as [[t r] Hfield].
    apply lookup_fmap_Some in Hfield as ([t' r'] & [= <- <-] & Hfield).
    exists t', r'. split.
    + by apply lookup_delete_Some in Hfield as [_ ?].
    + by rewrite lookup_fmap, Hfield.
Qed.

(** C9: the schema the factory produces is named by the original's name
    followed by the suffix, ["Create"] when none is given. *)
Theorem schema_factory_name
    (schema_cls : Schema) (pk_field_name name : option string) :
  constructs (cls_name schema_cls +:+ default "Create" name)
             (fields_without_pk schema_cls (default "id" pk_field_name)) ->
  exists s,
    schema_factory_call schema_cls pk_field_name name = Return s /\
    cls_name s = cls_name schema_cls +:+ default "Create" name.
Proof.
  intros Hconstructs. unfold schema_factory_call.
  destruct (schema_factory_returns _ _ _ Hconstructs) as (s & how & Hs & Hmade).
  exists s. split; [done|]. by eapply create_model_name.
Qed.

End SchemaFactoryProperties.

(** ** The reference facilities meet the contract *)

Lemma class_v2_declared (n : string) (defs : FieldDefinitions) :
  declared_fields (Reference.class_v2 n defs) =
    (fun def => (def.1, is_required def.2)) <$> defs.
Proof.
  unfold declared_fields. simpl. by rewrite <- map_fmap_compose.
Qed.

Lemma class_v1_declared (n : string) (defs : FieldDefinitions) :
  declared_fields (Reference.class_v1 n defs) =
    (fun def => (def.1, is_required def.2)) <$> defs.
Proof.
  unfold declared_fields. simpl. rewrite <- list_fmap_compose.
  rewrite <- (list_to_map_to_list defs) at 2.
  by rewrite <- list_to_map_fmap.
Qed.

Lemma pydantic_v2_spec : @ModelConstructionSpec Reference.pydantic_v2.
Proof.
  split; intros [] n defs s; try discriminate; intros [= <-];
    [reflexivity | apply class_v2_declared].
Qed.

Lemma pydantic_v1_spec : @ModelConstructionSpec Reference.pydantic_v1.
Proof.
  split; intros how n defs s [= <-]; [reflexivity | apply class_v1_declared].
Qed.

Lemma keyword_only_spec : @ModelConstructionSpec Reference.keyword_only.
Proof.
  split; intros [] n defs s; try discriminate; intros [= <-];
    [reflexivity | apply class_v1_declared].
Qed.

(** ** The claims at concrete schemas *)

Lemma get_pk_type_from_model_fields_witness :
  model_fields Examples.user = Some Examples.user_fields /\
  Examples.user_fields !! "id" = Some (FieldInfo.mk PyInt Ellipsis) /\
  get_pk_type Examples.user "id" = Return PyInt.
Proof.
  split; [reflexivity|]. split; [reflexivity|].
  apply (get_pk_type_from_model_fields Examples.user "id" Examples.user_fields
           (FieldInfo.mk PyInt Ellipsis)); reflexivity.
Defined.


Lemma schema_factory_field_set_witness :
  unique_field_names Examples.potato /\
  @constructs Reference.pydantic_v1 "PotatoCreate"
    (fields_without_pk Examples.potato "id") /\
  exists s,
    @schema_factory Reference.pydantic_v1 Examples.potato "id" "Create" = Return s /\
    field_set s = field_set Examples.potato ∖ {["id"]} /\
    forall field, field ∈ field_set s ->
      exists t r,
        declared_fields Examples.potato !! field = Some (t, r) /\
        declared_fields s !! field = Some (t, true).
Proof.
  assert (Hunique : unique_field_names Examples.potato).
  { apply (bool_decide_unpack _). vm_compute. exact I. }
  assert (Hconstructs : @constructs Reference.pydantic_v1 "PotatoCreate"
                          (fields_without_pk Examples.potato "id")).
  { left. eexists. reflexivity. }
  split; [exact Hunique|]. split; [exact Hconstructs|].
  exact (@schema_factory_field_set _ pydantic_v1_spec
           Examples.potato "id" "Create" Hunique Hconstructs).
Defined.

Lemma schema_factory_name_witness :
  @constructs Reference.keyword_only "UserCreate"
    (fields_without_pk Examples.user "id") /\
  exists s,
    @schema_factory_call Reference.keyword_only Examples.user None None = Return s /\
    cls_name s = "UserCreate".
Proof.
  assert (Hconstructs : @constructs Reference.keyword_only "UserCreate"
                          (fields_without_pk Examples.user "id")).
  { right. split; eexists; reflexivity. }
  split; [exact Hconstructs|].
  exact (@schema_factory_name _ keyword_only_spec
           Examples.user None None Hconstructs).
Defined.

(** The create schema of [User] under the v2-style facility, evaluated. *)
Example user_create_fields :
  exists s,
    @schema_factory Reference.pydantic_v2 Examples.user "id" "Create" = Return s /\
    cls_name s = "UserCreate" /\
    declared_fields s !! "id" = None /\
    declared_fields s !! "name" = Some (PyStr, true) /\
    declared_fields s !! "email" = Some (PyGeneric "Optional" [PyStr], true).
Proof.
  eexists. split; [reflexivity|].
  split; [reflexivity|]. split; [reflexivity|]. split; reflexivity.
Qed.

(** * Further properties of the module *)

(** ** Pagination: what is accepted, what is raised *)

(** The validator, with its integer tests decided. *)
Lemma pagination_cases (max_limit : option Z) (skip : Z) (limit : option Z) :
  pagination max_limit skip limit =
    if decide (skip < 0) then
      Raise (HTTPError (create_query_validation_exception "skip" skip_msg))
    else
      match limit with
      | Some l =>
          if decide (l <= 0) then
            Raise (HTTPError
                     (create_query_validation_exception "limit" limit_low_msg))
          else if over_max max_limit l then
            Raise (HTTPError
                     (create_query_validation_exception "limit"
                        (limit_high_msg max_limit)))
          else Return {["skip" := Some skip; "limit" := limit]}
      | None => Return {["skip" := Some skip; "limit" := limit]}
      end.
Proof.
  unfold pagination.
  destruct (Z.ltb_spec skip 0), (decide (skip < 0)); try lia; [reflexivity|].
  destruct limit as [l|]; [|reflexivity].
  destruct (Z.leb_spec l 0), (decide (l <= 0)); try lia; [reflexivity|].
  destruct (over_max max_limit l); reflexivity.
Qed.

Lemma pagination_Return_inv
    (max_limit : option Z) (skip : Z) (limit : option Z) (r : PAGINATION) :
  pagination max_limit skip limit = Return r <->
  r = {["skip" := Some skip; "limit" := limit]} /\
  0 <= skip /\
  forall l, limit = Some l ->
    0 < l /\ forall m, max_limit = Some m -> m <> 0 -> l <= m.
Proof.
  split.
  - intros Hr. rewrite pagination_cases in Hr.
    destruct (decide (skip < 0)) as [Hneg|Hskip]; [discriminate|].
    apply Z.nlt_ge in Hskip.
    destruct limit as [l|].
    + destruct (decide (l <= 0)) as [Hle|Hl]; [discriminate|].
      apply Z.nle_gt in Hl.
      destruct (over_max max_limit l) eqn:Hover; [discriminate|].
      injection Hr as <-. split; [reflexivity|]. split; [assumption|].
      intros l' [= <-]. split; [assumption|]. intros m -> Hm.
      apply over_max_false in Hover as [?|[?|(m' & ? & ?)]]; simplify_eq; lia.
    + injection Hr as <-. split; [reflexivity|]. split; [assumption|].
      intros l ?. discriminate.
  - intros (-> & Hskip & Hlimit). destruct limit as [l|].
    + destruct (Hlimit l eq_refl) as [Hl Hmax].
      rewrite pagination_past_range_checks by assumption.
      replace (over_max max_limit l) with false; [reflexivity|].
      symmetry. apply over_max_false. destruct max_limit as [m|]; [|by left].
      destruct (decide (m = 0)) as [->|Hm]; [by right; left|].
      right; right. exists m. split; [reflexivity|]. by apply Hmax.
    + unfold pagination.
      destruct (Z.ltb_spec skip 0) as [?|_]; [lia | reflexivity].
Qed.

(** X3: the validator returns exactly when [skip >= 0] and the limit, if
    given, is positive and within the maximum whenever the maximum is set
    and not zero; what it returns is the two values unchanged. *)
Theorem pagination_returns_iff
    (max_limit : option Z) (skip : Z) (limit : option Z) (r : PAGINATION) :
  pagination max_limit skip limit = Return r <->
  r = {["skip" := Some skip; "limit" := limit]} /\
  0 <= skip /\
  forall l, limit = Some l ->
    0 < l /\ forall m, max_limit = Some m -> m <> 0 -> l <= m.
Proof. apply pagination_Return_inv. Qed.

(** X4: whatever the validator raises is a 422 built by
    [create_query_validation_exception]; it names ["skip"] exactly when
    [skip] is negative, and otherwise names ["limit"], which then was
    given. *)
Theorem pagination_raises_classified
    (max_limit : option Z) (skip : Z) (limit : option Z) (e : PyExc) :
  pagination max_limit skip limit = Raise e ->
  (skip < 0 /\
   e = HTTPError (create_query_validation_exception "skip" skip_msg)) \/
  (0 <= skip /\
   exists l msg,
     limit = Some l /\
     (msg = limit_low_msg /\ l <= 0 \/
      msg = limit_high_msg max_limit /\ 0 < l) /\
     e = HTTPError (create_query_validation_exception "limit" msg)).
Proof.
  rewrite pagination_cases. intros He.
  destruct (decide (skip < 0)) as [Hneg|Hskip].
  - left. split; [assumption|]. by injection He as <-.
  - right. split; [lia|]. destruct limit as [l|]; [|discriminate].
    exists l. destruct (decide (l <= 0)) as [Hle|Hl].
    + injection He as <-. exists limit_low_msg. auto.
    + destruct (over_max max_limit l); [|discriminate].
      injection He as <-. exists (limit_high_msg max_limit).
      split; [reflexivity|]. split; [right; split; [reflexivity | lia] | reflexivity].
Qed.

Lemma pagination_raises_classified_witness :
  pagination (Some 10) 2 (Some 11)
    = Raise (HTTPError
               (create_query_validation_exception "limit"
                  "limit query parameter must be less then 10")) /\
  ((2 < 0 /\
    HTTPError (create_query_validation_exception "limit"
                 "limit query parameter must be less then 10")
      = HTTPError (create_query_validation_exception "skip" skip_msg)) \/
   (0 <= 2 /\
    exists l msg,
      Some 11 = Some l /\
      (msg = limit_low_msg /\ l <= 0 \/
       msg = limit_high_msg (Some 10) /\ 0 < l) /\
      HTTPError (create_query_validation_exception "limit"
                   "limit query parameter must be less then 10")
        = HTTPError (create_query_validation_exception "limit" msg))).
Proof.
  split; [reflexivity|].
  apply (pagination_raises_classified (Some 10) 2 (Some 11)). reflexivity.
Defined.

(** X5: with a positive maximum configured, a request that leaves [limit]
    out (and [skip] too, or gives a [skip >= 0]) is accepted with the
    maximum as its limit. *)
Theorem pagination_call_limit_defaults_to_max (max_limit : Z) (skip : option Z) :
  0 < max_limit -> 0 <= default 0 skip ->
  pagination_call (Some max_limit) skip None =
    Return {["skip" := Some (default 0 skip); "limit" := Some max_limit]}.
Proof.
  intros Hmax Hskip. unfold pagination_call. simpl (default (Some _) None).
  apply pagination_Return_inv. split; [reflexivity|]. split; [assumption|].
  intros l [= <-]. split; [assumption|]. intros m [= <-] _. lia.
Qed.

Lemma pagination_call_limit_defaults_to_max_witness :
  0 < 100 /\ 0 <= default 0 (None : option Z) /\
  pagination_call (Some 100) None None =
    Return {["skip" := Some 0; "limit" := Some 100]}.
Proof.
  split; [lia|]. split; [simpl; lia|].
  apply (pagination_call_limit_defaults_to_max 100 None); simpl; lia.
Defined.

(** X6: with a maximum of zero or below configured, a request that leaves
    [limit] out is rejected: the default limit is the maximum itself and
    fails the positivity check. *)
Theorem pagination_call_nonpositive_max_rejects_default (max_limit skip : Z) :
  max_limit <= 0 -> 0 <= skip ->
  pagination_call (Some max_limit) (Some skip) None =
    Raise (HTTPError
             (create_query_validation_exception "limit"
                "limit query parameter must be greater then zero")).
Proof.
  intros Hmax Hskip. unfold pagination_call. simpl.
  rewrite pagination_cases.
  destruct (decide (skip < 0)); [lia|]. destruct (decide (max_limit <= 0)); [reflexivity | lia].
Qed.

Lemma pagination_call_nonpositive_max_rejects_default_witness :
  0 <= 0 /\ 0 <= 7 /\
  pagination_call (Some 0) (Some 7) None =
    Raise (HTTPError
             (create_query_validation_exception "limit"
                "limit query parameter must be greater then zero")).
Proof.
  split; [lia|]. split; [lia|].
  apply (pagination_call_nonpositive_max_rejects_default 0 7); lia.
Defined.

(** X7: what is accepted under some configured maximum is accepted, with
    the same result, when no maximum is configured. *)
Theorem pagination_accepted_without_max
    (max_limit : option Z) (skip : Z) (limit : option Z) (r : PAGINATION) :
  pagination max_limit skip limit = Return r ->
  pagination None skip limit = Return r.
Proof.
  rewrite !pagination_Return_inv. intros (-> & Hskip & Hlimit).
  split; [reflexivity|]. split; [assumption|].
  intros l Hl. destruct (Hlimit l Hl) as [Hpos _]. split; [assumption|].
  intros m ?. discriminate.
Qed.

Lemma pagination_accepted_without_max_witness :
  pagination (Some 10) 5 (Some 10)
    = Return {["skip" := Some 5; "limit" := Some 10]} /\
  pagination None 5 (Some 10)
    = Return {["skip" := Some 5; "limit" := Some 10]}.
Proof.
  split; [reflexivity|].
  apply (pagination_accepted_without_max (Some 10)). reflexivity.
Defined.

(** X8: raising a maximum other than zero never rejects what was accepted;
    from zero it can, as zero is no maximum at all. *)
Theorem pagination_monotone_in_max
    (m m' skip : Z) (limit : option Z) (r : PAGINATION) :
  m <> 0 -> m <= m' ->
  pagination (Some m) skip limit = Return r ->
  pagination (Some m') skip limit = Return r.
Proof.
  intros Hm Hle. rewrite !pagination_Return_inv. intros (-> & Hskip & Hlimit).
  split; [reflexivity|]. split; [assumption|].
  intros l Hl. destruct (Hlimit l Hl) as [Hpos Hmax]. split; [assumption|].
  intros ? [= <-] _. specialize (Hmax m eq_refl Hm). lia.
Qed.

Lemma pagination_monotone_in_max_witness :
  10 <> 0 /\ 10 <= 20 /\
  pagination (Some 10) 0 (Some 10)
    = Return {["skip" := Some 0; "limit" := Some 10]} /\
  pagination (Some 20) 0 (Some 10)
    = Return {["skip" := Some 0; "limit" := Some 10]}.
Proof.
  split; [lia|]. split; [lia|]. split; [reflexivity|].
  apply (pagination_monotone_in_max 10 20); [lia | lia | reflexivity].
Defined.

(** X9: a negative maximum leaves nothing to request: whether the limit is
    given or left to its default, the call is rejected. *)
Theorem pagination_call_negative_max_rejects
    (max_limit : Z) (skip : option Z) (limit : option (option Z)) :
  max_limit < 0 -> limit <> Some None ->
  exists e, pagination_call (Some max_limit) skip limit = Raise e.
Proof.
  intros Hmax Hlimit. unfold pagination_call.
  destruct (pagination (Some max_limit) (default 0 skip)
              (default (Some max_limit) limit)) as [r|e] eqn:Hcall;
    [|by exists e].
  apply pagination_Return_inv in Hcall as (_ & _ & Hl). exfalso.
  destruct limit as [[l|]|]; simpl in Hl.
  - destruct (Hl l eq_refl) as [Hpos Hle].
    specialize (Hle max_limit eq_refl). lia.
  - by apply Hlimit.
  - destruct (Hl max_limit eq_refl) as [Hpos _]. lia.
Qed.

Lemma pagination_call_negative_max_rejects_witness :
  -1 < 0 /\ Some (Some 3) <> Some (None : option Z) /\
  exists e, pagination_call (Some (-1)) None (Some (Some 3)) = Raise e.
Proof.
  split; [lia|]. split; [discriminate|].
  apply (pagination_call_negative_max_rejects (-1) None (Some (Some 3)));
    [lia | discriminate].
Defined.

(** ** The resolver: fallback and failure *)

Lemma get_pk_type_from_type_hints_witness :
  model_fields Examples.potato = None /\
  get_type_hints Examples.potato
    = Return {[ "id" := PyInt; "color" := PyStr; "mass" := PyFloat ]} /\
  get_pk_type Examples.potato "color" = Return PyStr.
Proof.
  split; [reflexivity|]. split; [reflexivity|].
  apply (get_pk_type_from_type_hints Examples.potato "color"
           {[ "id" := PyInt; "color" := PyStr; "mass" := PyFloat ]} PyStr).
  - intros fields Hfields. discriminate Hfields.
  - reflexivity.
  - reflexivity.
Defined.

(** X2: the resolver raises exactly when the field is not in the field
    metadata and type introspection raises, and it raises that very
    exception; a field found in the metadata is resolved without
    introspection being asked. *)
Theorem get_pk_type_raises_iff (schema : Schema) (pk_field : string) (e : PyExc) :
  get_pk_type schema pk_field = Raise e <->
  (forall fields, model_fields schema = Some fields -> fields !! pk_field = None) /\
  get_type_hints schema = Raise e.
Proof.
  unfold get_pk_type.
  destruct (dict_truthy _ && dict_contains _ _) eqn:Hguard.
  - apply metadata_guard in Hguard as (mf & fi & Hmf & Hfi).
    rewrite Hmf. simpl. unfold getitem. rewrite Hfi. simpl. split; [discriminate|].
    intros [Hnone _]. specialize (Hnone mf eq_refl). congruence.
  - assert (Hnone : forall fields,
               model_fields schema = Some fields -> fields !! pk_field = None).
    { intros fields Hfields. destruct (fields !! pk_field) as [fi|] eqn:Hfi; [|done].
      exfalso. apply not_true_iff_false in Hguard. apply Hguard.
      apply metadata_guard. eauto. }
    destruct (get_type_hints schema) as [hints|e'] eqn:Hhints; simpl.
    + split; [|intros [_ ?]; discriminate].
      destruct (dict_contains pk_field hints) eqn:Hin; [|discriminate].
      apply dict_contains_true in Hin as [t Ht]. unfold getitem. rewrite Ht.
      discriminate.
    + split; [intros [= ->]; by split | intros [_ [= ->]]; reflexivity].
Qed.

(** ** The factory: what it hands to [create_model] *)

Lemma foldl_insert_lookup {A V} (key : A -> string) (val : A -> V)
    (l : list A) (acc : gmap string V) (k : string) (v : V) :
  foldl (fun acc a => <[key a := val a]> acc) acc l !! k = Some v ->
  acc !! k = Some v \/ exists a, a ∈ l /\ key a = k /\ v = val a.
Proof.
  revert acc. induction l as [|a l IH]; intros acc; cbn [foldl]; [by left|].
  intros Hk. apply IH in Hk as [Hk|(a' & Hin & Hkey & Hval)].
  - destruct (decide (key a = k)) as [Heq|Hne].
    + rewrite Heq, lookup_insert_eq in Hk. injection Hk as <-.
      right. exists a. split; [by left | done].
    + rewrite lookup_insert_ne in Hk by done. by left.
  - right. exists a'. split; [by right | done].
Qed.

(** X10: whatever the schema, unique names or not, a field definition the
    factory hands to [create_model] is never the primary key, is always
    required, and has the name and type of a field of the original. *)
Theorem fields_without_pk_sound
    (schema_cls : Schema) (pk_field_name field : string) (def : pytype * pydefault) :
  fields_without_pk schema_cls pk_field_name !! field = Some def ->
  field <> pk_field_name /\
  def.2 = Ellipsis /\
  match model_fields schema_cls, fields_v1 schema_cls with
  | Some fields, _ =>
      exists field_info,
        fields !! field = Some field_info /\
        def.1 = FieldInfo.annotation field_info
  | None, Some values =>
      exists f, f ∈ values /\ ModelField.name f = field /\ def.1 = ModelField.type_ f
  | None, None => False
  end.
Proof.
  unfold fields_without_pk.
  destruct (model_fields schema_cls) as [mf|].
  - rewrite lookup_fmap_Some. intros (fi & <- & Hfi).
    apply map_lookup_filter_Some in Hfi as [Hfi Hne]. simpl in *. eauto.
  - destruct (fields_v1 schema_cls) as [values|].
    + intros Hk. apply foldl_insert_lookup in Hk as [Hk|(f & Hin & Hname & ->)].
      { by rewrite lookup_empty in Hk. }
      apply list_elem_of_filter in Hin as [Hne Hin]. simpl.
      split; [congruence|]. split; [reflexivity|]. eauto.
    + by rewrite lookup_empty.
Qed.

Lemma fields_without_pk_sound_witness :
  fields_without_pk Examples.potato "id" !! "mass" = Some (PyFloat, Ellipsis) /\
  "mass" <> "id" /\
  (PyFloat, Ellipsis).2 = Ellipsis /\
  exists f, f ∈ [ModelField.mk "id" PyInt true PyInt;
                 ModelField.mk "color" PyStr true PyStr;
                 ModelField.mk "mass" PyFloat false PyFloat] /\
            ModelField.name f = "mass" /\ (PyFloat, Ellipsis).1 = ModelField.type_ f.
Proof.
  split; [reflexivity|].
  apply (fields_without_pk_sound Examples.potato "id" "mass" (PyFloat, Ellipsis)).
  reflexivity.
Defined.

(** ** The factory: failure, and use on its own result *)

Section SchemaFactoryFailure.
Context `{Facility : ModelConstruction}.

(** X11: the factory raises [e] exactly when the positional call raises [e]
    and [e] is not a [TypeError], or the positional call raises a
    [TypeError] and the keyword call raises [e]. A [TypeError] of the first
    call is never what the caller sees unless the second call raises one
    too. *)
Theorem schema_factory_raises_iff
    (schema_cls : Schema) (pk_field_name name : string) (e : PyExc) :
  schema_factory schema_cls pk_field_name name = Raise e <->
  (create_model Positional (cls_name schema_cls +:+ name)
                (fields_without_pk schema_cls pk_field_name) = Raise e /\
   forall msg, e <> TypeError msg) \/
  ((exists msg,
      create_model Positional (cls_name schema_cls +:+ name)
                   (fields_without_pk schema_cls pk_field_name)
        = Raise (TypeError msg)) /\
   create_model Keyword (cls_name schema_cls +:+ name)
                (fields_without_pk schema_cls pk_field_name) = Raise e).
Proof.
  unfold schema_factory.
  destruct (create_model Positional _ _) as [s|e1]; simpl.
  - split; [discriminate|]. intros [[? _]|[[msg ?] _]]; discriminate.
  - destruct e1 as [msg| | | |]; simpl.
    + split.
      * intros Hkw. right. split; [by exists msg | done].
      * intros [[[= <-] Hne]|[_ Hkw]]; [by destruct (Hne msg) | done].
    + split.
      * intros [= <-]. left. split; [done | discriminate].
      * intros [[[= <-] _]|[[? ?] _]]; [done | discriminate].
    + split.
      * intros [= <-]. left. split; [done | discriminate].
      * intros [[[= <-] _]|[[? ?] _]]; [done | discriminate].
    + split.
      * intros [= <-]. left. split; [done | discriminate].
      * intros [[[= <-] _]|[[? ?] _]]; [done | discriminate].
    + split.
      * intros [= <-]. left. split; [done | discriminate].
      * intros [[[= <-] _]|[[? ?] _]]; [done | discriminate].
Qed.

(** A schema the factory returns was returned by [create_model], called
    with the concatenated name and the fields without the primary key. *)
Lemma schema_factory_Return_inv
    (schema_cls : Schema) (pk_field_name name : string) (s : Schema) :
  schema_factory schema_cls pk_field_name name = Return s ->
  exists how,
    create_model how (cls_name schema_cls +:+ name)
                 (fields_without_pk schema_cls pk_field_name) = Return s.
Proof.
  unfold schema_factory.
  destruct (create_model Positional _ _) as [s'|e1] eqn:Hpos; simpl.
  - intros [= <-]. by exists Positional.
  - destruct e1; simpl; try discriminate. intros Hkw. by exists Keyword.
Qed.

End SchemaFactoryFailure.

Lemma lookup_required_without
    (pk k : string) (fields : gmap string (pytype * bool)) :
  required_without pk fields !! k =
    if decide (k = pk) then None
    else (fun field => (field.1, true)) <$> fields !! k.
Proof.
  unfold required_without. rewrite lookup_fmap.
  destruct (decide (k = pk)) as [->|Hne].
  - by rewrite lookup_delete_eq.
  - by rewrite lookup_delete_ne.
Qed.


Lemma required_without_comm (pk pk' : string) (fields : gmap string (pytype * bool)) :
  required_without pk (required_without pk' fields)
  = required_without pk' (required_without pk fields).
Proof.
  apply map_eq. intros k. rewrite !lookup_required_without.
  by destruct (decide (k = pk)), (decide (k = pk')).
Qed.


Section SchemaFactoryComposition.
Context `{Facility : ModelConstructionSpec}.

(** What a returned create schema declares and how it is named. *)
Lemma schema_factory_declared
    (schema_cls : Schema) (pk_field_name name : string) (s : Schema) :
  unique_field_names schema_cls ->
  schema_factory schema_cls pk_field_name name = Return s ->
  declared_fields s = required_without pk_field_name (declared_fields schema_cls) /\
  cls_name s = cls_name schema_cls +:+ name.
Proof.
  intros Hunique Hs. apply schema_factory_Return_inv in Hs as [how Hmade].
  split.
  - apply create_model_fields in Hmade.
    by rewrite fields_without_pk_declared in Hmade.
  - by eapply create_model_name.
Qed.


(** X13: leaving out two fields one after the other gives the same fields
    in either order. *)
Theorem schema_factory_order_irrelevant
    (schema_cls s1 s12 s2 s21 : Schema) (pk pk' name : string) :
  unique_field_names schema_cls ->
  unique_field_names s1 -> unique_field_names s2 ->
  schema_factory schema_cls pk name = Return s1 ->
  schema_factory s1 pk' name = Return s12 ->
  schema_factory schema_cls pk' name = Return s2 ->
  schema_factory s2 pk name = Return s21 ->
  declared_fields s12 = declared_fields s21.
Proof.
  intros Hu Hu1 Hu2 Hs1 Hs12 Hs2 Hs21.
  apply schema_factory_declared in Hs1 as [Hf1 _]; [|done].
  apply schema_factory_declared in Hs12 as [Hf12 _]; [|done].
  apply schema_factory_declared in Hs2 as [Hf2 _]; [|done].
  apply schema_factory_declared in Hs21 as [Hf21 _]; [|done].
  rewrite Hf12, Hf1, Hf21, Hf2. apply required_without_comm.
Qed.


End SchemaFactoryComposition.


Lemma schema_factory_order_irrelevant_witness :
  declared_fields
    (Reference.class_v2 "UserAA"
       (fields_without_pk
          (Reference.class_v2 "UserA" (fields_without_pk Examples.user "id"))
          "email"))
  = declared_fields
      (Reference.class_v2 "UserAA"
         (fields_without_pk
            (Reference.class_v2 "UserA" (fields_without_pk Examples.user "email"))
            "id")).
Proof.
  exact (@schema_factory_order_irrelevant _ pydantic_v2_spec Examples.user
           (Reference.class_v2 "UserA" (fields_without_pk Examples.user "id"))
           (Reference.class_v2 "UserAA"
              (fields_without_pk
                 (Reference.class_v2 "UserA"
                    (fields_without_pk Examples.user "id")) "email"))
           (Reference.class_v2 "UserA" (fields_without_pk Examples.user "email"))
           (Reference.class_v2 "UserAA"
              (fields_without_pk
                 (Reference.class_v2 "UserA"
                    (fields_without_pk Examples.user "email")) "id"))
           "id" "email" "A" I I I eq_refl eq_refl eq_refl eq_refl).
Defined.


(** ** Failure cases: introspection errors and legacy container fields *)



(** C1, at a legacy schema with a container field: [Article] declares
    [tags: List[str]], the factory copies [type_], which is [str], and the
    create schema declares [tags: str]. The field set and the required
    flags are as the claim says; the annotation type is not kept. *)
Theorem schema_factory_legacy_container_type :
  annotated_fields Examples.article !! "tags" = Some (PyGeneric "List" [PyStr]) /\
  fields_without_pk Examples.article "id" !! "tags" = Some (PyStr, Ellipsis) /\
  exists s,
    @schema_factory Reference.pydantic_v1 Examples.article "id" "Create" = Return s /\
    field_set s = field_set Examples.article ∖ {["id"]} /\
    declared_fields s !! "tags" = Some (PyStr, true) /\
    annotated_fields s !! "tags" = Some PyStr /\
    annotated_fields s !! "tags" <> annotated_fields Examples.article !! "tags".
Proof.
  assert (Hunique : unique_field_names Examples.article).
  { apply (bool_decide_unpack _). vm_compute. exact I. }
  split; [vm_compute; reflexivity|]. split; [vm_compute; reflexivity|].
  exists (Reference.class_v1 "ArticleCreate"
            (fields_without_pk Examples.article "id")).
  assert (Hs : @schema_factory Reference.pydantic_v1 Examples.article "id" "Create"
               = Return (Reference.class_v1 "ArticleCreate"
                           (fields_without_pk Examples.article "id")))
    by reflexivity.
  destruct (@schema_factory_declared _ pydantic_v1_spec _ _ _ _ Hunique Hs)
    as [Hdeclared _].
  split; [exact Hs|].
  assert (Htags : declared_fields
                    (Reference.class_v1 "ArticleCreate"
                       (fields_without_pk Examples.article "id")) !! "tags"
                  = Some (PyStr, true)).
  { rewrite Hdeclared, lookup_required_without.
    destruct (decide ("tags" = "id")) as [Heq|_]; [discriminate Heq|].
    vm_compute. reflexivity. }
  split.
  - unfold field_set. rewrite Hdeclared. unfold required_without.
    by rewrite dom_fmap_L, dom_delete_L.
  - split; [exact Htags|].
    assert (Hannotated : annotated_fields
                           (Reference.class_v1 "ArticleCreate"
                              (fields_without_pk Examples.article "id")) !! "tags"
                         = Some PyStr) by (vm_compute; reflexivity).
    split; [exact Hannotated|]. rewrite Hannotated.
    assert (Horiginal : annotated_fields Examples.article !! "tags"
                        = Some (PyGeneric "List" [PyStr]))
      by (vm_compute; reflexivity).
    rewrite Horiginal. discriminate.
Qed.
